(** * Docmed.ai medical assistant backend

    A shallow embedding of [medical_assistant_backend.py]: the schema and
    prompt builders, the two Flask views and the start-up sequence of the
    module, followed by the properties of the service.

    Python values are modelled as data; the provider client, the JSON
    decoder of the standard library and the depth the JSON encoder can reach
    are parameters of the views; the effects of a view (calls to the
    provider, lines printed, exceptions) are modelled by a small
    state-and-exception monad. *)

From Stdlib Require Import List String Ascii ZArith NArith Bool Lia.
From Stdlib Require Import Floats.SpecFloat.
Import ListNotations.

Set Implicit Arguments.
Set Warnings "-register-all".

(** ** Python strings *)

(** A Python [str] is a sequence of Unicode code points. *)
Definition codepoint := N.
Definition pystr := list codepoint.

(** The literals of the source are ASCII; [py] reads one. *)
Definition py (s : string) : pystr :=
  map N_of_ascii (list_ascii_of_string s).

Definition newline : pystr := [10%N].
Definition dquote : pystr := [34%N].

Fixpoint pystr_eqb (a b : pystr) : bool :=
  match a, b with
  | [], [] => true
  | x :: a', y :: b' => N.eqb x y && pystr_eqb a' b'
  | _, _ => false
  end.

(** [Py_UNICODE_ISSPACE]: the characters [str.strip()] removes when it is
    called without an argument. *)
Definition Py_UNICODE_ISSPACE (c : codepoint) : bool :=
  ((9 <=? c) && (c <=? 13) ||
   (28 <=? c) && (c <=? 32) ||
   (c =? 133) || (c =? 160) || (c =? 5760) ||
   (8192 <=? c) && (c <=? 8202) ||
   (c =? 8232) || (c =? 8233) || (c =? 8239) || (c =? 8287) ||
   (c =? 12288))%N.

Fixpoint lstrip (s : pystr) : pystr :=
  match s with
  | [] => []
  | c :: s' => if Py_UNICODE_ISSPACE c then lstrip s' else s
  end.

Definition rstrip (s : pystr) : pystr := rev (lstrip (rev s)).

Definition strip (s : pystr) : pystr := rstrip (lstrip s).

(** [startswith] and the [in] operator on strings. *)
Fixpoint startswith (s prefix : pystr) {struct prefix} : bool :=
  match prefix, s with
  | [], _ => true
  | p :: prefix', c :: s' => N.eqb p c && startswith s' prefix'
  | _ :: _, [] => false
  end.

Fixpoint contains (s sub : pystr) : bool :=
  startswith s sub ||
  match s with
  | [] => false
  | _ :: s' => contains s' sub
  end.

(** ** Python values *)

(** The values [json.loads] and [request.get_json()] produce. A [dict] is
    kept as its items in insertion order. *)
Inductive PyVal : Type :=
| PyNone
| PyBool (b : bool)
| PyInt (n : Z)
| PyFloat (x : spec_float)
| PyStr (s : pystr)
| PyList (l : list PyVal)
| PyDict (items : list (pystr * PyVal)).

Definition type_name (v : PyVal) : string :=
  match v with
  | PyNone => "NoneType"
  | PyBool _ => "bool"
  | PyInt _ => "int"
  | PyFloat _ => "float"
  | PyStr _ => "str"
  | PyList _ => "list"
  | PyDict _ => "dict"
  end.

(** The value stored under a key of a [dict]. *)
Fixpoint lookup {V : Type} (items : list (pystr * V)) (key : pystr)
  : option V :=
  match items with
  | [] => None
  | (k, v) :: rest => if pystr_eqb k key then Some v else lookup rest key
  end.

(** An instance of [Exception]: its class and what [str(e)] gives. *)
Record PyException : Type := mkExc {
  exc_class : string;
  exc_str : pystr
}.

Definition AttributeError (v : PyVal) (attr : string) : PyException :=
  mkExc "AttributeError"
    (py "'" ++ py (type_name v) ++ py "' object has no attribute '" ++
     py attr ++ py "'").

Definition TypeError (msg : pystr) : PyException := mkExc "TypeError" msg.

(** How deep the containers of a value are nested: the number of recursive
    calls the JSON encoder makes to write it. *)
Fixpoint depth (v : PyVal) : nat :=
  match v with
  | PyList l => S (fold_left (fun deepest x => Nat.max deepest (depth x)) l 0)
  | PyDict items =>
      S (fold_left (fun deepest kv => Nat.max deepest (depth (snd kv)))
           items 0)
  | _ => 0
  end.

(** What the encoder raises when it reaches the recursion limit of the
    interpreter. *)
Definition RecursionError : PyException :=
  mkExc "RecursionError"
    (py "maximum recursion depth exceeded while encoding a JSON object").

(** ** google.genai.types *)

Module types.

Inductive Type_ : Type :=
| TYPE_UNSPECIFIED | STRING | NUMBER | INTEGER | BOOLEAN | ARRAY | OBJECT
| NULL.

(** [types.Schema], with the keyword arguments the source passes; an
    argument left out is [None]. *)
Inductive Schema : Type := mkSchema {
  type : option Type_;
  properties : option (list (pystr * Schema));
  items : option Schema;
  description : option pystr;
  required : option (list pystr)
}.

Record GenerateContentConfig : Type := mkConfig {
  response_mime_type : pystr;
  response_schema : Schema
}.

End types.

(** ** Medical information schema and prompt *)

(** Defines the structured output for general medical information. *)
Definition get_medical_schema (_ : unit) : types.Schema :=
  types.mkSchema (Some types.OBJECT)
    (Some
      [ (py "query",
         types.mkSchema (Some types.STRING) None None
           (Some (py "The original user query.")) None);
        (py "potential_condition",
         types.mkSchema (Some types.STRING) None None
           (Some (py "The general condition or topic related to the query."))
           None);
        (py "summary",
         types.mkSchema (Some types.STRING) None None
           (Some (py "A concise educational summary of the topic.")) None);
        (py "common_symptoms",
         types.mkSchema (Some types.ARRAY) None
           (Some (types.mkSchema (Some types.STRING) None None None None))
           (Some (py "A list of common symptoms associated with the condition."))
           None);
        (py "recommended_actions",
         types.mkSchema (Some types.ARRAY) None
           (Some (types.mkSchema (Some types.STRING) None None None None))
           (Some (py "General advice for next steps, such as resting or consulting a doctor."))
           None);
        (py "important_disclaimer",
         types.mkSchema (Some types.STRING) None None
           (Some (py "A mandatory safety warning that this is AI medical advice But go to the doctor for more appropriate answers."))
           None) ])
    None
    None
    (Some [py "query"; py "potential_condition"; py "summary";
           py "important_disclaimer"]).

(** The text of the f-string before and after the interpolated input. *)
Definition prompt_head : pystr :=
  newline ++
  py "    You are a non-diagnostic medical information assistant. Your goal is to provide general, solution, educational information based on a user's health-related query." ++
  newline ++
  newline ++
  py "    **CRITICAL SAFETY WARNING:** You must include a prominent and specific legal disclaimer in the 'important_disclaimer' field. This information is NOT medical advice, diagnosis, or treatment and should not replace consultation with a qualified healthcare professional." ++
  newline ++
  newline ++
  py "    Based on the user's input: " ++ dquote.

Definition prompt_tail : pystr :=
  dquote ++
  py ". Generate a detailed, educational response strictly in a single JSON block following the provided schema." ++
  newline ++
  py "    ".

(** Creates the system prompt with a safety disclaimer. *)
Definition create_medical_prompt (user_input : pystr) : pystr :=
  prompt_head ++ user_input ++ prompt_tail.

(** ** The provider client *)

(** The keyword arguments of [models.generate_content]. *)
Record GenerateContentCall : Type := mkCall {
  model : pystr;
  contents : list pystr;
  config : types.GenerateContentConfig
}.

(** The response of the provider; its [text] may be [None]. *)
Record GenerateContentResponse : Type := mkResponse {
  text : option pystr
}.

(** [genai.Client]: given the calls already made through it and a new call,
    the provider answers or the call raises (a network error, a time-out, an
    API error). *)
Record Client : Type := mkClient {
  models_generate_content :
    list GenerateContentCall -> GenerateContentCall ->
    PyException + GenerateContentResponse
}.

(** ** Effects of a view *)

(** What a view can change: the calls sent to the provider and the lines
    printed. *)
Record World : Type := mkWorld {
  sent : list GenerateContentCall;
  stdout : list pystr
}.

Inductive Outcome (A : Type) : Type :=
| Returns (a : A)
| Raises (e : PyException).

Arguments Raises {A} e.

Definition Py (A : Type) : Type := World -> Outcome A * World.

Definition ret {A} (a : A) : Py A := fun w => (Returns a, w).

Definition raise {A} (e : PyException) : Py A := fun w => (Raises e, w).

Definition bind {A B} (c : Py A) (k : A -> Py B) : Py B :=
  fun w =>
    match c w with
    | (Returns a, w') => k a w'
    | (Raises e, w') => (Raises e, w')
    end.

(** [try: c except Exception as e: handler e]. *)
Definition try_except {A} (c : Py A) (handler : PyException -> Py A) : Py A :=
  fun w =>
    match c w with
    | (Returns a, w') => (Returns a, w')
    | (Raises e, w') => handler e w'
    end.

Declare Scope py_scope.
Delimit Scope py_scope with py.
Notation "x <- c ;; k" := (bind c (fun x => k))
  (at level 61, c at next level, right associativity) : py_scope.
Notation "c ;; k" := (bind c (fun _ => k))
  (at level 61, right associativity) : py_scope.
Local Open Scope py_scope.

Definition print (line : pystr) : Py unit :=
  fun w => (Returns tt, mkWorld (sent w) (stdout w ++ [line])).

(** One call through the client: it is sent whether it then answers or
    raises. *)
Definition generate_content (client : Client) (call : GenerateContentCall)
  : Py GenerateContentResponse :=
  fun w =>
    let w' := mkWorld (sent w ++ [call]) (stdout w) in
    match models_generate_content client (sent w) call with
    | inl e => (Raises e, w')
    | inr response => (Returns response, w')
    end.

(** [data.get(key, default)]: only a [dict] has the method. *)
Definition get (data : PyVal) (key : pystr) (default : PyVal) : Py PyVal :=
  match data with
  | PyDict items =>
      ret (match lookup items key with
           | Some v => v
           | None => default
           end)
  | _ => raise (AttributeError data "get")
  end.

(** [v.strip()]: only a [str] has the method. *)
Definition strip_method (v : PyVal) : Py pystr :=
  match v with
  | PyStr s => ret (strip s)
  | _ => raise (AttributeError v "strip")
  end.

(** Truth value of a [str]. *)
Definition truthy (s : pystr) : bool :=
  match s with
  | [] => false
  | _ :: _ => true
  end.

(** ** Flask *)

Record Response : Type := mkFlaskResponse {
  get_json : PyVal;
  mimetype : pystr
}.

(** The response [jsonify(v)] builds when it can serialise [v]. *)
Definition jsonify (v : PyVal) : Response :=
  mkFlaskResponse v (py "application/json").

(** A view returns [(response, status)]. *)
Definition Reply : Type := (Response * Z)%type.

Inductive Method : Type := GET | POST | PUT | DELETE | PATCH | HEAD | OPTIONS.

Definition Method_eqb (a b : Method) : bool :=
  match a, b with
  | GET, GET | POST, POST | PUT, PUT | DELETE, DELETE | PATCH, PATCH
  | HEAD, HEAD | OPTIONS, OPTIONS => true
  | _, _ => false
  end.

(** An inbound request, with the value [request.get_json()] gives for its
    body. *)
Record Request : Type := mkRequest {
  method : Method;
  path : pystr;
  request_get_json : PyVal
}.

(** ** API routes *)

Section Views.

(** The client created at start-up. *)
Variable gemini_client : Client.

(** The decoder behind [json.loads] on a [str]: the value, or the
    [JSONDecodeError]. *)
Variable json_decode : pystr -> PyException + PyVal.

(** How far below the object it is given [jsonify] can descend before the
    encoder reaches the recursion limit of the interpreter; it depends on
    the limit and on the frames in use. The object itself, with values that
    are not containers, is always within reach. *)
Variable encoder_depth : nat.

(** The call [jsonify(v)]: it serialises [v], and raises when [v] is nested
    too deep for the encoder. *)
Definition jsonify_call (v : PyVal) : Py Response :=
  if (depth v <=? S encoder_depth)%nat then ret (jsonify v)
  else raise RecursionError.

Definition json_loads (s : option pystr) : Py PyVal :=
  match s with
  | None =>
      raise (TypeError
        (py "the JSON object must be str, bytes or bytearray, not NoneType"))
  | Some t =>
      match json_decode t with
      | inl e => raise e
      | inr v => ret v
      end
  end.

(** Simple check to confirm the server is running. *)
Definition home : Py Reply :=
  response <- jsonify_call (PyDict
    [(py "message",
      PyStr (py "Medical Assistant Backend is running. Endpoint: /api/get-medical-info"))]) ;;
  ret (response, 200%Z).

(** Generates structured medical information based on user prompt. *)
Definition get_medical_info (data : PyVal) : Py Reply :=
  prompt <- get data (py "prompt") (PyStr []) ;;
  user_prompt <- strip_method prompt ;;
  if negb (truthy user_prompt) then
    response <- jsonify_call (PyDict
      [(py "error", PyStr (py "Missing 'prompt' in request body."))]) ;;
    ret (response, 400%Z)
  else
    try_except
      (let system_prompt := create_medical_prompt user_prompt in
       let config :=
         types.mkConfig (py "application/json") (get_medical_schema tt) in
       gemini_response <-
         generate_content gemini_client
           (mkCall (py "gemini-2.5-flash") [system_prompt] config) ;;
       response_data <- json_loads (text gemini_response) ;;
       response <- jsonify_call (PyDict
         [(py "success", PyBool true); (py "data", response_data)]) ;;
       ret (response, 200%Z))
      (fun e =>
         print (py "Error during API call or processing: " ++ exc_str e) ;;
         response <- jsonify_call (PyDict
           [(py "error",
             PyStr (py "Failed to get medical information. Detail: "
                    ++ exc_str e))]) ;;
         ret (response, 500%Z)).

(** The rules the two [@app.route] decorators register. *)
Inductive Endpoint : Type := endpoint_home | endpoint_get_medical_info.

Definition url_map : list (pystr * list Method * Endpoint) :=
  [ (py "/", [GET], endpoint_home);
    (py "/api/get-medical-info", [POST], endpoint_get_medical_info) ].

(** The methods a rule answers with its view: those it was registered
    with, and HEAD when GET is among them. *)
Definition rule_methods (methods : list Method) : list Method :=
  if existsb (Method_eqb GET) methods then HEAD :: methods else methods.

Definition rule_matches (req : Request)
  (rule : pystr * list Method * Endpoint) : bool :=
  let '(rule_path, methods, _) := rule in
  pystr_eqb rule_path (path req) &&
  existsb (Method_eqb (method req)) (rule_methods methods).

Definition match_request (req : Request) : option Endpoint :=
  match find (rule_matches req) url_map with
  | Some (_, _, endpoint) => Some endpoint
  | None => None
  end.

(** The view a request is dispatched to; [None] when no rule above
    matches it and the framework answers on its own. *)
Definition dispatch_request (req : Request) : option (Py Reply) :=
  match match_request req with
  | Some endpoint_home => Some home
  | Some endpoint_get_medical_info =>
      Some (get_medical_info (request_get_json req))
  | None => None
  end.

End Views.

(** ** Initialization *)

(** [os.environ] once [load_dotenv()] has run. *)
Definition Environ : Type := list (pystr * pystr).

Definition os_getenv (environ : Environ) (key : pystr) : option pystr :=
  lookup environ key.

(** Truth value of what [os.getenv] returns: [None] and the empty string
    are false. *)
Definition truthy_opt (v : option pystr) : bool :=
  match v with
  | None => false
  | Some s => truthy s
  end.

(** How the module ends up: [exit(status)] was called, or the application
    serves requests with the client it created. *)
Inductive Process : Type :=
| Exited (status : Z)
| Serving (gemini_client : Client) (port : Z).

Section Initialization.

(** [genai.Client(api_key=...)]: the client, or the exception raised. *)
Variable genai_Client : option pystr -> PyException + Client.

(** The body of the module, down to [app.run]; the second component is
    what it printed. *)
Definition main (environ : Environ) : Process * list pystr :=
  let GEMINI_API_KEY := os_getenv environ (py "GEMINI_API_KEY") in
  if negb (truthy_opt GEMINI_API_KEY) then
    (Exited 1, [py "FATAL ERROR: GEMINI_API_KEY not found. Exiting."])
  else
    match genai_Client GEMINI_API_KEY with
    | inl e =>
        (Exited 1, [py "Error initializing Gemini client: " ++ exc_str e])
    | inr gemini_client => (Serving gemini_client 5000, [])
    end.

(** A request reaches a view only in a process that is serving. *)
Definition handle (json_decode : pystr -> PyException + PyVal)
  (encoder_depth : nat) (process : Process) (req : Request)
  : option (Py Reply) :=
  match process with
  | Exited _ => None
  | Serving gemini_client _ =>
      dispatch_request gemini_client json_decode encoder_depth req
  end.

End Initialization.

(** ** Vocabulary of the properties *)

(** [data] is a JSON object whose ['prompt'] is a string that trims to the
    non-empty [user_prompt]. *)
Definition valid_request (data : PyVal) (user_prompt : pystr) : Prop :=
  exists items s,
    data = PyDict items /\
    lookup items (py "prompt") = Some (PyStr s) /\
    strip s = user_prompt /\
    user_prompt <> [].

(** [data] is a JSON object whose ['prompt'] is missing or a string made of
    whitespace only. *)
Definition blank_request (data : PyVal) : Prop :=
  exists items,
    data = PyDict items /\
    (lookup items (py "prompt") = None \/
     exists s, lookup items (py "prompt") = Some (PyStr s) /\
               forallb Py_UNICODE_ISSPACE s = true).

(** [data] is not a JSON object, or its ['prompt'] is there and not a
    string. *)
Definition malformed_request (data : PyVal) : bool :=
  match data with
  | PyDict items =>
      match lookup items (py "prompt") with
      | Some (PyStr _) | None => false
      | Some _ => true
      end
  | _ => true
  end.

(** The call the handler sends for a trimmed prompt. *)
Definition medical_call (user_prompt : pystr) : GenerateContentCall :=
  mkCall (py "gemini-2.5-flash") [create_medical_prompt user_prompt]
    (types.mkConfig (py "application/json") (get_medical_schema tt)).

Definition error_reply (message : pystr) (status : Z) : Reply :=
  (jsonify (PyDict [(py "error", PyStr message)]), status).

(** The reply of the [except] branch for the exception [e]. *)
Definition upstream_error_reply (e : PyException) : Reply :=
  error_reply (py "Failed to get medical information. Detail: " ++ exc_str e)
    500.

(** The world once the call for [user_prompt] was sent. *)
Definition after_call (w : World) (user_prompt : pystr) : World :=
  mkWorld (sent w ++ [medical_call user_prompt]) (stdout w).

(** The world once the [except] branch printed its line. *)
Definition after_failure (w : World) (user_prompt : pystr) (e : PyException)
  : World :=
  mkWorld (sent w ++ [medical_call user_prompt])
    (stdout w ++ [py "Error during API call or processing: " ++ exc_str e]).

(** The attempt for [user_prompt] fails with [e]: the call raises [e] (a
    time-out is such an exception), or [json.loads] raises [e] on the text
    returned, or there is no text and [json.loads] raises a [TypeError]. *)
Definition upstream_failure (gemini_client : Client)
  (json_decode : pystr -> PyException + PyVal) (w : World)
  (user_prompt : pystr) (e : PyException) : Prop :=
  models_generate_content gemini_client (sent w) (medical_call user_prompt)
    = inl e \/
  (exists t,
     models_generate_content gemini_client (sent w)
       (medical_call user_prompt) = inr (mkResponse (Some t)) /\
     json_decode t = inl e) \/
  (models_generate_content gemini_client (sent w)
     (medical_call user_prompt) = inr (mkResponse None) /\
   e = TypeError
         (py "the JSON object must be str, bytes or bytearray, not NoneType")).

(** The attempt for [user_prompt] fails in [jsonify]: the provider returned
    a text that [json.loads] parsed to [v], and [v] is nested too deep for
    the encoder, which raises [RecursionError]. *)
Definition encoding_failure (gemini_client : Client)
  (json_decode : pystr -> PyException + PyVal) (encoder_depth : nat)
  (w : World) (user_prompt : pystr) (v : PyVal) : Prop :=
  (exists t,
     models_generate_content gemini_client (sent w)
       (medical_call user_prompt) = inr (mkResponse (Some t)) /\
     json_decode t = inr v) /\
  (encoder_depth < depth v)%nat.

Definition success_reply (parsed : PyVal) : Reply :=
  (jsonify (PyDict [(py "success", PyBool true); (py "data", parsed)]), 200%Z).


(** Reading a schema: a declared property, whether it is a list of
    strings, whether a name is among the required ones. *)
Definition property (schema : types.Schema) (name : pystr)
  : option types.Schema :=
  match types.properties schema with
  | Some declared => lookup declared name
  | None => None
  end.

Definition is_list_of_string (schema : types.Schema) : bool :=
  match types.type schema, types.items schema with
  | Some types.ARRAY, Some item =>
      match types.type item with
      | Some types.STRING => true
      | _ => false
      end
  | _, _ => false
  end.

Definition is_required (schema : types.Schema) (name : pystr) : bool :=
  match types.required schema with
  | Some fields => existsb (pystr_eqb name) fields
  | None => false
  end.

(** The directive of the prompt about the disclaimer field. *)
Definition disclaimer_directive : pystr :=
  py "**CRITICAL SAFETY WARNING:** You must include a prominent and specific legal disclaimer in the 'important_disclaimer' field.".

(** The names a schema declares, the names it requires, and whether a
    schema is the one of a string. *)
Definition declared_names (schema : types.Schema) : list pystr :=
  match types.properties schema with
  | Some declared => map fst declared
  | None => []
  end.

Definition required_names (schema : types.Schema) : list pystr :=
  match types.required schema with
  | Some fields => fields
  | None => []
  end.

Definition is_string (schema : types.Schema) : bool :=
  match types.type schema with
  | Some types.STRING => true
  | _ => false
  end.

(** The line the [except] branch prints for the exception [e]. *)
Definition failure_line (e : PyException) : pystr :=
  py "Error during API call or processing: " ++ exc_str e.

(** ** Test doubles *)

(** A client whose every call has the given result. *)
Definition mock_client (result : PyException + GenerateContentResponse)
  : Client :=
  mkClient (fun _ _ => result).

(** A decoder that knows the empty object and rejects every other text the
    way [json.loads] rejects text that starts with no value. *)
Definition mock_decode (t : pystr) : PyException + PyVal :=
  if pystr_eqb t (py "{}") then inr (PyDict [])
  else inl (mkExc "JSONDecodeError"
              (py "Expecting value: line 1 column 1 (char 0)")).

Definition empty_world : World := mkWorld [] [].

(** A room for the encoder, as found in a fresh interpreter. *)
Definition mock_encoder_depth : nat := 990.

(** [n + 1] empty lists, one inside the other, and the text that denotes
    them. *)
Fixpoint nest (n : nat) : PyVal :=
  match n with
  | O => PyList []
  | S k => PyList [nest k]
  end.

Definition brackets (n : nat) : pystr :=
  repeat 91%N (S n) ++ repeat 93%N (S n).

Fixpoint count_open (t : pystr) : nat * pystr :=
  match t with
  | 91%N :: rest => let (n, closing) := count_open rest in (S n, closing)
  | _ => (O, t)
  end.

(** A decoder that knows nested empty lists and rejects every other text
    the way [json.loads] rejects text that starts with no value. *)
Definition bracket_decode (t : pystr) : PyException + PyVal :=
  match count_open t with
  | (S n, closing) =>
      if pystr_eqb closing (repeat 93%N (S n)) then inr (nest n)
      else inl (mkExc "JSONDecodeError"
                  (py "Expecting value: line 1 column 1 (char 0)"))
  | (O, _) =>
      inl (mkExc "JSONDecodeError"
             (py "Expecting value: line 1 column 1 (char 0)"))
  end.

Definition prompt_body (s : string) : PyVal :=
  PyDict [(py "prompt", PyStr (py s))].

(** * Properties *)

Unset Implicit Arguments.

(** ** Strings *)

Lemma pystr_eqb_refl (a : pystr) : pystr_eqb a a = true.
Proof.
  induction a as [|x a IH]; simpl; [reflexivity|].
  now rewrite N.eqb_refl, IH.
Qed.

Lemma pystr_eqb_eq (a b : pystr) : pystr_eqb a b = true <-> a = b.
Proof.
  split; [|intros ->; apply pystr_eqb_refl].
  revert b; induction a as [|x a IH]; intros [|y b]; simpl;
    try discriminate; [reflexivity|].
  intros H. apply andb_true_iff in H as [Hxy Hab].
  apply N.eqb_eq in Hxy. now rewrite Hxy, (IH b Hab).
Qed.

Lemma lstrip_blank (s : pystr) :
  forallb Py_UNICODE_ISSPACE s = true -> lstrip s = [].
Proof.
  induction s as [|c s IH]; simpl; [reflexivity|].
  destruct (Py_UNICODE_ISSPACE c); simpl; [exact IH | discriminate].
Qed.

Lemma strip_blank (s : pystr) :
  forallb Py_UNICODE_ISSPACE s = true -> strip s = [].
Proof.
  intros H. unfold strip, rstrip. now rewrite (lstrip_blank s H).
Qed.

Lemma lstrip_head (s rest : pystr) (c : codepoint) :
  lstrip s = c :: rest -> Py_UNICODE_ISSPACE c = false.
Proof.
  induction s as [|x s IH]; simpl; [discriminate|].
  destruct (Py_UNICODE_ISSPACE x) eqn:Hx; [exact IH|].
  intros H. injection H as <- _. exact Hx.
Qed.

Lemma lstrip_empty (s : pystr) :
  lstrip s = [] -> forallb Py_UNICODE_ISSPACE s = true.
Proof.
  induction s as [|c s IH]; simpl; [reflexivity|].
  destruct (Py_UNICODE_ISSPACE c); simpl; [exact IH | discriminate].
Qed.

(** Trimming leaves nothing exactly when the string is made of whitespace
    only. *)
Lemma strip_empty_iff (s : pystr) :
  strip s = [] <-> forallb Py_UNICODE_ISSPACE s = true.
Proof.
  split; [|apply strip_blank].
  unfold strip, rstrip. intros H.
  destruct (lstrip s) as [|c rest] eqn:Hl; [now apply lstrip_empty|].
  exfalso.
  assert (Hrev : lstrip (rev (c :: rest)) = []).
  { destruct (lstrip (rev (c :: rest))) as [|y l]; [reflexivity|].
    simpl in H. now destruct (rev l). }
  apply lstrip_empty in Hrev.
  rewrite forallb_forall in Hrev.
  specialize (Hrev c). rewrite <- in_rev in Hrev.
  rewrite (lstrip_head s rest c Hl) in Hrev.
  discriminate Hrev. now left.
Qed.

Lemma startswith_spec (s sub : pystr) :
  startswith s sub = true <-> exists rest, s = sub ++ rest.
Proof.
  revert s; induction sub as [|p sub IH]; intros s; simpl.
  - split; [intros _; now exists s | reflexivity].
  - destruct s as [|c s].
    + split; [discriminate | intros [rest H]; discriminate].
    + rewrite andb_true_iff, N.eqb_eq, IH. split.
      * intros [-> [rest ->]]. now exists rest.
      * intros [rest H]. injection H as -> ->. split; [reflexivity|].
        now exists rest.
Qed.

Lemma contains_spec (s sub : pystr) :
  contains s sub = true <-> exists before after, s = before ++ sub ++ after.
Proof.
  induction s as [|c s IH].
  - simpl. rewrite orb_false_r, startswith_spec. split.
    + intros [rest H]. now exists [], rest.
    + intros [[|x before] [after H]]; [now exists after | discriminate].
  - change (contains (c :: s) sub)
      with (startswith (c :: s) sub || contains s sub).
    rewrite orb_true_iff, startswith_spec, IH. split.
    + intros [[rest H] | [before [after H]]].
      * now exists [], rest.
      * exists (c :: before), after. now rewrite H.
    + intros [[|x before] [after H]].
      * left. now exists after.
      * right. injection H as _ H. now exists before, after.
Qed.

Lemma contains_app_l (s sub rest : pystr) :
  contains s sub = true -> contains (s ++ rest) sub = true.
Proof.
  rewrite !contains_spec. intros [before [after ->]].
  exists before, (after ++ rest). now rewrite <- !app_assoc.
Qed.

(** ** The prompt builder *)

(** C4: for every string [s] (so for every non-empty trimmed one) the prompt
    builder returns a text, with no error case, in which [s] stands verbatim
    between the fixed head and tail of the template, and which contains the
    directive to put a disclaimer in the ['important_disclaimer'] field. *)
Theorem create_medical_prompt_embeds (s : pystr) :
  create_medical_prompt s = prompt_head ++ s ++ prompt_tail /\
  contains (create_medical_prompt s) s = true /\
  contains (create_medical_prompt s) disclaimer_directive = true /\
  contains disclaimer_directive (py "'important_disclaimer'") = true.
Proof.
  split; [reflexivity|]. split; [|split].
  - apply contains_spec. now exists prompt_head, prompt_tail.
  - unfold create_medical_prompt. apply contains_app_l.
    vm_compute. reflexivity.
  - vm_compute. reflexivity.
Qed.

(** ** The schema builder *)

(** C5: whatever the call, the schema lists exactly [query],
    [potential_condition], [summary] and [important_disclaimer] as required;
    [common_symptoms] and [recommended_actions] are declared as arrays of
    strings and are not required. *)
Theorem get_medical_schema_required (u : unit) :
  types.required (get_medical_schema u) =
    Some [py "query"; py "potential_condition"; py "summary";
          py "important_disclaimer"] /\
  (forall name,
     is_required (get_medical_schema u) name =
       (pystr_eqb name (py "query") ||
        pystr_eqb name (py "potential_condition") ||
        pystr_eqb name (py "summary") ||
        pystr_eqb name (py "important_disclaimer"))) /\
  (exists s,
     property (get_medical_schema u) (py "common_symptoms") = Some s /\
     is_list_of_string s = true) /\
  is_required (get_medical_schema u) (py "common_symptoms") = false /\
  (exists s,
     property (get_medical_schema u) (py "recommended_actions") = Some s /\
     is_list_of_string s = true) /\
  is_required (get_medical_schema u) (py "recommended_actions") = false /\
  get_medical_schema u = get_medical_schema tt.
Proof.
  destruct u. split; [reflexivity|]. split.
  - intros name. unfold is_required, get_medical_schema, types.required.
    cbn [existsb]. now rewrite orb_false_r, !orb_assoc.
  - split; [eexists; split; vm_compute; reflexivity|].
    split; [vm_compute; reflexivity|].
    split; [eexists; split; vm_compute; reflexivity|].
    split; [vm_compute; reflexivity | reflexivity].
Qed.

(** ** The request handler *)

(** Every parsed body is malformed, blank or valid. *)
Lemma request_cases (data : PyVal) :
  malformed_request data = true \/
  blank_request data \/
  exists user_prompt, valid_request data user_prompt.
Proof.
  destruct data as [| | | | |l|items]; try (now left).
  unfold malformed_request.
  destruct (lookup items (py "prompt")) as [[| | | |s| |]|] eqn:Hprompt;
    try (now left); right.
  - destruct (strip s) as [|c rest] eqn:Hstrip.
    + left. exists items. split; [reflexivity|]. right. exists s.
      split; [assumption | now apply strip_empty_iff].
    + right. exists (c :: rest), items, s.
      repeat split; [assumption.. | discriminate].
  - left. exists items. split; [reflexivity | now left].
Qed.

(** Closes a goal about the calls sent when none was. *)
Ltac no_call :=
  exists []; split; [now rewrite app_nil_r | simpl; lia].

Section Handler.

Variable gemini_client : Client.
Variable json_decode : pystr -> PyException + PyVal.
Variable encoder_depth : nat.

Local Abbreviation handler :=
  (get_medical_info gemini_client json_decode encoder_depth).

(** What the handler does with a valid request, case by case on the
    answer of the provider. *)
Lemma get_medical_info_valid (data : PyVal) (user_prompt : pystr)
  (w : World) :
  valid_request data user_prompt ->
  handler data w =
    match models_generate_content gemini_client (sent w)
            (medical_call user_prompt) with
    | inl e =>
        (Returns (upstream_error_reply e), after_failure w user_prompt e)
    | inr response =>
        match text response with
        | None =>
            let e := TypeError
              (py "the JSON object must be str, bytes or bytearray, not NoneType") in
            (Returns (upstream_error_reply e),
             after_failure w user_prompt e)
        | Some t =>
            match json_decode t with
            | inl e =>
                (Returns (upstream_error_reply e),
                 after_failure w user_prompt e)
            | inr v =>
                if (depth v <=? encoder_depth)%nat then
                  (Returns (success_reply v), after_call w user_prompt)
                else
                  (Returns (upstream_error_reply RecursionError),
                   after_failure w user_prompt RecursionError)
            end
        end
    end.
Proof.
  intros (items & s & -> & Hprompt & Hstrip & Hne).
  unfold get_medical_info, bind, get, ret. rewrite Hprompt.
  unfold strip_method, ret. rewrite Hstrip.
  destruct user_prompt as [|c rest]; [contradiction|].
  cbn [truthy negb].
  unfold try_except, bind, generate_content. fold (medical_call (c :: rest)).
  destruct (models_generate_content _ _ _) as [e|[[t|]]]; cbn [text].
  - reflexivity.
  - unfold json_loads. destruct (json_decode t) as [e|v]; [reflexivity|].
    unfold ret, jsonify_call at 1.
    change (depth (PyDict [(py "success", PyBool true); (py "data", v)])
            <=? S encoder_depth)%nat
      with (depth v <=? encoder_depth)%nat.
    destruct (depth v <=? encoder_depth)%nat; reflexivity.
  - reflexivity.
Qed.

(** A JSON object without a prompt, or with a blank one, is refused with
    status 400 and the provider is not called. *)
Lemma get_medical_info_blank (data : PyVal) (w : World) :
  blank_request data ->
  handler data w =
    (Returns (error_reply (py "Missing 'prompt' in request body.") 400), w).
Proof.
  intros (items & -> & [Hnone | (s & Hsome & Hblank)]);
    unfold get_medical_info, bind, get, ret.
  - rewrite Hnone. reflexivity.
  - rewrite Hsome. unfold strip_method, ret.
    rewrite (strip_blank s Hblank). reflexivity.
Qed.

(** What is not a JSON object with a string prompt makes the handler
    raise before it validates anything. *)
Lemma get_medical_info_malformed (data : PyVal) (w : World) :
  malformed_request data = true ->
  exists attr bad,
    handler data w = (Raises (AttributeError bad attr), w).
Proof.
  unfold get_medical_info, bind, get, raise, ret.
  destruct data as [| | | | |l|items]; intros H;
    try (now eexists "get"%string, _).
  simpl in H.
  destruct (lookup items (py "prompt")) as [[| | | | | |]|];
    try discriminate; now eexists "strip"%string, _.
Qed.

(** C1, at the input where it fails: a body that is JSON [null] has no
    ['prompt'], yet the handler raises [AttributeError] on [data.get]
    instead of returning the 400 reply. *)
Theorem get_medical_info_null_body (w : World) :
  handler PyNone w = (Raises (AttributeError PyNone "get"), w) /\
  handler PyNone w <>
    (Returns (error_reply (py "Missing 'prompt' in request body.") 400), w).
Proof.
  split; [reflexivity | discriminate].
Qed.


(** A failed attempt ends in the [except] branch. *)
Lemma get_medical_info_upstream_failure (data : PyVal) (user_prompt : pystr)
  (e : PyException) (w : World) :
  valid_request data user_prompt ->
  upstream_failure gemini_client json_decode w user_prompt e ->
  handler data w =
    (Returns (upstream_error_reply e), after_failure w user_prompt e).
Proof.
  intros Hvalid Hfail. rewrite (get_medical_info_valid _ _ w Hvalid).
  destruct Hfail as [Hcall | [(t & Hcall & Hparse) | (Hcall & ->)]];
    rewrite Hcall; cbn [text]; [| rewrite Hparse |]; reflexivity.
Qed.

(** C3: for a valid non-empty prompt, when the call to the provider raises
    [e] (a time-out is such an exception), or its text is not valid JSON
    and [json.loads] raises [e], the handler returns (it does not raise) the
    reply 500 whose ['error'] is
    ["Failed to get medical information. Detail: "] followed by [str(e)]. *)
Theorem get_medical_info_failure (data : PyVal) (user_prompt : pystr)
  (e : PyException) (w : World) :
  valid_request data user_prompt ->
  upstream_failure gemini_client json_decode w user_prompt e ->
  handler data w =
    (Returns
       (jsonify (PyDict
          [(py "error",
            PyStr (py "Failed to get medical information. Detail: "
                   ++ exc_str e))]),
        500%Z),
     after_failure w user_prompt e).
Proof.
  intros Hvalid Hfail.
  exact (get_medical_info_upstream_failure data user_prompt e w Hvalid Hfail).
Qed.

(** C6: when the parsed body is not a JSON object (it is [None], say), or
    its ['prompt'] is present and not a string (a number, say), the
    handler raises [AttributeError] before the validation branch; nothing
    catches it there, so the outcome is not the 400 reply. *)
Theorem get_medical_info_raises_before_validation (data : PyVal)
  (w : World) :
  malformed_request data = true ->
  (exists e,
     handler data w = (Raises e, w) /\ exc_class e = "AttributeError"%string)
  /\
  handler data w <>
    (Returns (error_reply (py "Missing 'prompt' in request body.") 400), w).
Proof.
  intros H. destruct (get_medical_info_malformed data w H) as (attr & bad & Heq).
  rewrite Heq. split; [|discriminate].
  exists (AttributeError bad attr). now split.
Qed.


(** C8: a request makes the handler call the provider at most once; when
    the attempt fails, the failure is what the handler replies with at once,
    and the call it sent is the only one. *)
Theorem get_medical_info_single_attempt (data : PyVal) (w : World) :
  (exists calls,
     sent (snd (handler data w)) = sent w ++ calls /\
     (List.length calls <= 1)%nat) /\
  (forall user_prompt e,
     valid_request data user_prompt ->
     upstream_failure gemini_client json_decode w user_prompt e ->
     fst (handler data w) = Returns (upstream_error_reply e) /\
     sent (snd (handler data w)) = sent w ++ [medical_call user_prompt]).
Proof.
  split.
  - destruct (request_cases data) as [Hbad | [Hblank | [p Hvalid]]].
    + destruct (get_medical_info_malformed data w Hbad) as (attr & bad & ->).
      no_call.
    + rewrite (get_medical_info_blank data w Hblank). no_call.
    + rewrite (get_medical_info_valid data p w Hvalid).
      exists [medical_call p]. split; [|simpl; lia].
      destruct (models_generate_content _ _ _) as [e|[[t|]]];
        cbn [text];
        [| destruct (json_decode t) as [e|v];
           [| destruct (depth v <=? encoder_depth)%nat] |];
        reflexivity.
  - intros user_prompt e Hvalid Hfail.
    rewrite (get_medical_info_upstream_failure data user_prompt e w
               Hvalid Hfail).
    now split.
Qed.

End Handler.

(** ** Routing and the liveness route *)

Lemma dispatch_post_medical_info (gemini_client : Client)
  (json_decode : pystr -> PyException + PyVal) (encoder_depth : nat)
  (data : PyVal) :
  dispatch_request gemini_client json_decode encoder_depth
    (mkRequest POST (py "/api/get-medical-info") data)
  = Some (get_medical_info gemini_client json_decode encoder_depth data).
Proof. reflexivity. Qed.

(** C10: a GET request to [/] is dispatched to [home], which returns status
    200 and [{"message": "Medical Assistant Backend is running. Endpoint:
    /api/get-medical-info"}] whatever the client of the provider is, sends
    nothing to the provider and prints nothing. *)
Theorem home_always_ok (gemini_client : Client)
  (json_decode : pystr -> PyException + PyVal) (encoder_depth : nat)
  (body : PyVal) (w : World) :
  dispatch_request gemini_client json_decode encoder_depth
    (mkRequest GET (py "/") body)
    = Some (home encoder_depth) /\
  home encoder_depth w =
    (Returns
       (jsonify (PyDict
          [(py "message",
            PyStr (py "Medical Assistant Backend is running. Endpoint: /api/get-medical-info"))]),
        200%Z),
     w).
Proof. split; reflexivity. Qed.

(** ** Start-up *)

(** C9: when [GEMINI_API_KEY] is not in the environment (or is empty), or
    the constructor of the client raises, the module calls [exit(1)]: the
    process ends with a non-zero status before the application exists, so
    no request is ever answered by it. *)
Theorem main_refuses_to_start
  (genai_Client : option pystr -> PyException + Client)
  (environ : Environ) :
  (os_getenv environ (py "GEMINI_API_KEY") = None \/
   os_getenv environ (py "GEMINI_API_KEY") = Some [] \/
   exists e, genai_Client (os_getenv environ (py "GEMINI_API_KEY")) = inl e) ->
  exists status printed,
    main genai_Client environ = (Exited status, printed) /\
    status = 1%Z /\
    status <> 0%Z /\
    forall json_decode encoder_depth req,
      handle json_decode encoder_depth (fst (main genai_Client environ)) req
      = None.
Proof.
  intros H. unfold main.
  destruct H as [-> | [-> | [e He]]].
  - cbn [truthy_opt negb]. eexists _, _. now repeat split.
  - cbn [truthy_opt truthy negb]. eexists _, _. now repeat split.
  - destruct (negb (truthy_opt _)).
    + eexists _, _. now repeat split.
    + rewrite He. eexists _, _. now repeat split.
Qed.

(** ** The properties at concrete inputs *)

Lemma headache_is_valid :
  valid_request (prompt_body "I have a headache and fever")
    (py "I have a headache and fever").
Proof.
  exists [(py "prompt", PyStr (py "I have a headache and fever"))],
         (py "I have a headache and fever").
  split; [reflexivity|]. split; [reflexivity|].
  split; [reflexivity | discriminate].
Defined.


Lemma get_medical_info_failure_witness :
  get_medical_info
    (mock_client (inl (mkExc "ConnectError" (py "Connection refused"))))
    mock_decode mock_encoder_depth
    (prompt_body "I have a headache and fever") empty_world
  = (Returns
       (jsonify (PyDict
          [(py "error",
            PyStr (py "Failed to get medical information. Detail: Connection refused"))]),
        500%Z),
     after_failure empty_world (py "I have a headache and fever")
       (mkExc "ConnectError" (py "Connection refused"))).
Proof.
  apply (get_medical_info_failure
           (mock_client (inl (mkExc "ConnectError" (py "Connection refused"))))
           mock_decode mock_encoder_depth
           (prompt_body "I have a headache and fever")
           (py "I have a headache and fever")
           (mkExc "ConnectError" (py "Connection refused")) empty_world).
  - exact headache_is_valid.
  - left. reflexivity.
Defined.

Lemma get_medical_info_raises_before_validation_witness :
  malformed_request (PyDict [(py "prompt", PyInt 5)]) = true /\
  (exists e,
     get_medical_info (mock_client (inr (mkResponse (Some (py "{}")))))
       mock_decode mock_encoder_depth (PyDict [(py "prompt", PyInt 5)]) empty_world
     = (Raises e, empty_world) /\
     exc_class e = "AttributeError"%string) /\
  get_medical_info (mock_client (inr (mkResponse (Some (py "{}")))))
    mock_decode mock_encoder_depth (PyDict [(py "prompt", PyInt 5)]) empty_world
  <> (Returns (error_reply (py "Missing 'prompt' in request body.") 400),
      empty_world).
Proof.
  split; [reflexivity|].
  apply (get_medical_info_raises_before_validation
           (mock_client (inr (mkResponse (Some (py "{}")))))
             mock_decode mock_encoder_depth
           (PyDict [(py "prompt", PyInt 5)]) empty_world).
  reflexivity.
Defined.


Lemma get_medical_info_single_attempt_witness :
  fst (get_medical_info
         (mock_client (inl (mkExc "ReadTimeout" (py "timed out"))))
         mock_decode mock_encoder_depth
         (prompt_body "I have a headache and fever")
         empty_world)
  = Returns (upstream_error_reply (mkExc "ReadTimeout" (py "timed out"))) /\
  sent (snd (get_medical_info
               (mock_client (inl (mkExc "ReadTimeout" (py "timed out"))))
               mock_decode mock_encoder_depth
               (prompt_body "I have a headache and fever")
               empty_world))
  = sent empty_world ++ [medical_call (py "I have a headache and fever")].
Proof.
  apply (proj2 (get_medical_info_single_attempt
                  (mock_client (inl (mkExc "ReadTimeout" (py "timed out"))))
                  mock_decode mock_encoder_depth
                  (prompt_body "I have a headache and fever")
                  empty_world)
           (py "I have a headache and fever")
           (mkExc "ReadTimeout" (py "timed out"))).
  - exact headache_is_valid.
  - left. reflexivity.
Defined.

Lemma main_refuses_to_start_witness :
  os_getenv [(py "PATH", py "/usr/bin")] (py "GEMINI_API_KEY") = None /\
  exists status printed,
    main (fun _ => inr (mock_client (inr (mkResponse None))))
      [(py "PATH", py "/usr/bin")] = (Exited status, printed) /\
    status = 1%Z /\
    status <> 0%Z /\
    forall json_decode encoder_depth req,
      handle json_decode encoder_depth
        (fst (main (fun _ => inr (mock_client (inr (mkResponse None))))
                [(py "PATH", py "/usr/bin")])) req = None.
Proof.
  split; [reflexivity|].
  apply (main_refuses_to_start
           (fun _ => inr (mock_client (inr (mkResponse None))))
           [(py "PATH", py "/usr/bin")]).
  left. reflexivity.
Defined.

(** ** Runs of the handler *)

Example strip_spaces : strip (py "  fever " ++ [160%N; 10%N]) = py "fever".
Proof. reflexivity. Qed.

Example empty_object_is_refused :
  get_medical_info (mock_client (inr (mkResponse (Some (py "{}")))))
    mock_decode mock_encoder_depth (PyDict []) empty_world
  = (Returns (error_reply (py "Missing 'prompt' in request body.") 400),
     empty_world).
Proof. reflexivity. Qed.

Example blank_prompt_is_refused :
  get_medical_info (mock_client (inr (mkResponse (Some (py "{}")))))
    mock_decode mock_encoder_depth (prompt_body "   ") empty_world
  = (Returns (error_reply (py "Missing 'prompt' in request body.") 400),
     empty_world).
Proof. reflexivity. Qed.

Example invalid_json_is_an_upstream_error :
  fst (get_medical_info (mock_client (inr (mkResponse (Some (py "not json")))))
         mock_decode mock_encoder_depth
         (prompt_body "I have a headache and fever") empty_world)
  = Returns
      (error_reply
         (py "Failed to get medical information. Detail: Expecting value: line 1 column 1 (char 0)")
         500).
Proof. reflexivity. Qed.

Example array_body_raises :
  fst (get_medical_info (mock_client (inr (mkResponse (Some (py "{}")))))
         mock_decode mock_encoder_depth (PyList []) empty_world)
  = Raises (mkExc "AttributeError"
              (py "'list' object has no attribute 'get'")).
Proof. reflexivity. Qed.

(** * Further properties *)

(** ** Trimming *)

Lemma lstrip_suffix (s : pystr) : exists dropped, s = dropped ++ lstrip s.
Proof.
  induction s as [|c s [dropped IH]]; [now exists []|].
  simpl. destruct (Py_UNICODE_ISSPACE c).
  - exists (c :: dropped). simpl. now rewrite <- IH.
  - now exists [].
Qed.

Lemma lstrip_fixed (s : pystr) :
  (forall c rest, s = c :: rest -> Py_UNICODE_ISSPACE c = false) ->
  lstrip s = s.
Proof.
  destruct s as [|c rest]; [reflexivity|].
  intros H. simpl. now rewrite (H c rest eq_refl).
Qed.

Lemma lstrip_idempotent (s : pystr) : lstrip (lstrip s) = lstrip s.
Proof.
  apply lstrip_fixed. intros c rest H. exact (lstrip_head s rest c H).
Qed.

(** What [rstrip] keeps is a prefix of the string. *)
Lemma rstrip_prefix (s : pystr) : exists dropped, s = rstrip s ++ dropped.
Proof.
  unfold rstrip. destruct (lstrip_suffix (rev s)) as [dropped H].
  exists (rev dropped).
  rewrite <- rev_app_distr, <- H. now rewrite rev_involutive.
Qed.

(** A trimmed string starts with no whitespace. *)
Lemma strip_head (s rest : pystr) (c : codepoint) :
  strip s = c :: rest -> Py_UNICODE_ISSPACE c = false.
Proof.
  unfold strip. intros H.
  destruct (rstrip_prefix (lstrip s)) as [dropped Hpre].
  rewrite H in Hpre. simpl in Hpre.
  exact (lstrip_head s (rest ++ dropped) c Hpre).
Qed.

(** Trimming twice is trimming once. *)
Lemma strip_idempotent (s : pystr) : strip (strip s) = strip s.
Proof.
  assert (Hl : lstrip (strip s) = strip s).
  { apply lstrip_fixed. intros c rest H. exact (strip_head s rest c H). }
  unfold strip at 1. rewrite Hl.
  unfold strip, rstrip. rewrite rev_involutive.
  now rewrite lstrip_idempotent.
Qed.

(** ** The prompt builder, continued *)

(** X8: different inputs give different prompts: the input can be read back
    from the prompt. *)
Theorem create_medical_prompt_injective (s1 s2 : pystr) :
  create_medical_prompt s1 = create_medical_prompt s2 -> s1 = s2.
Proof.
  unfold create_medical_prompt. intros H.
  apply app_inv_head in H. now apply app_inv_tail in H.
Qed.

(** The prompt is longer than the input by the fixed length of the
    template, 585 characters. *)
Lemma create_medical_prompt_length (s : pystr) :
  List.length (create_medical_prompt s) = (List.length s + 585)%nat.
Proof.
  unfold create_medical_prompt. rewrite !length_app.
  change (List.length prompt_head) with 473%nat.
  change (List.length prompt_tail) with 112%nat. lia.
Qed.

(** ** The schema builder, continued *)

(** X9: the schema is a well-formed object schema: its property names are
    distinct, every name it requires is a declared string property, and
    every declared property is a string or an array of strings and carries
    a description. *)
Theorem get_medical_schema_well_formed (u : unit) :
  types.type (get_medical_schema u) = Some types.OBJECT /\
  NoDup (declared_names (get_medical_schema u)) /\
  (forall name,
     In name (required_names (get_medical_schema u)) ->
     exists s,
       property (get_medical_schema u) name = Some s /\
       is_string s = true) /\
  (forall name s,
     property (get_medical_schema u) name = Some s ->
     (is_string s || is_list_of_string s) = true /\
     types.description s <> None /\
     types.required s = None).
Proof.
  destruct u. split; [reflexivity|]. split; [|split].
  - unfold declared_names, get_medical_schema.
    cbn [types.properties map fst].
    repeat (constructor; [vm_compute; intuition discriminate|]).
    constructor.
  - unfold required_names, get_medical_schema. cbn [types.required In].
    intros name [<- | [<- | [<- | [<- | []]]]];
      eexists; split; vm_compute; reflexivity.
  - intros name s. unfold property, get_medical_schema.
    cbn [types.properties lookup].
    repeat match goal with
    | |- context [if pystr_eqb ?k name then _ else _] =>
        destruct (pystr_eqb k name);
        [intros H; injection H as <-;
         split; [reflexivity | split; [discriminate | reflexivity]] |]
    end.
    discriminate.
Qed.

(** ** The request handler, continued *)

Section HandlerOutcomes.

Variable gemini_client : Client.
Variable json_decode : pystr -> PyException + PyVal.
Variable encoder_depth : nat.

Local Abbreviation handler :=
  (get_medical_info gemini_client json_decode encoder_depth).

(** The four ways a request can end. *)
Lemma get_medical_info_cases (data : PyVal) (w : World) :
  (malformed_request data = true /\
   exists attr bad, handler data w = (Raises (AttributeError bad attr), w)) \/
  (blank_request data /\
   handler data w =
     (Returns (error_reply (py "Missing 'prompt' in request body.") 400), w))
  \/
  (exists user_prompt t v,
     valid_request data user_prompt /\
     models_generate_content gemini_client (sent w)
       (medical_call user_prompt) = inr (mkResponse (Some t)) /\
     json_decode t = inr v /\
     (depth v <= encoder_depth)%nat /\
     handler data w = (Returns (success_reply v), after_call w user_prompt))
  \/
  (exists user_prompt e,
     valid_request data user_prompt /\
     (upstream_failure gemini_client json_decode w user_prompt e \/
      (e = RecursionError /\
       exists v,
         encoding_failure gemini_client json_decode encoder_depth w
           user_prompt v)) /\
     handler data w =
       (Returns (upstream_error_reply e), after_failure w user_prompt e)).
Proof.
  destruct (request_cases data) as [Hbad | [Hblank | [p Hvalid]]].
  - left. split; [assumption|].
    exact (get_medical_info_malformed gemini_client json_decode
             encoder_depth data w Hbad).
  - right; left. split; [assumption|].
    exact (get_medical_info_blank gemini_client json_decode encoder_depth
             data w Hblank).
  - right; right.
    assert (Hfail : forall e,
      upstream_failure gemini_client json_decode w p e ->
      exists user_prompt e',
        valid_request data user_prompt /\
        (upstream_failure gemini_client json_decode w user_prompt e' \/
         (e' = RecursionError /\
          exists v,
            encoding_failure gemini_client json_decode encoder_depth w
              user_prompt v)) /\
        handler data w =
          (Returns (upstream_error_reply e'),
           after_failure w user_prompt e')).
    { intros e He. exists p, e. split; [assumption|]. split; [now left|].
      exact (get_medical_info_upstream_failure gemini_client json_decode
               encoder_depth data p e w Hvalid He). }
    destruct (models_generate_content gemini_client (sent w) (medical_call p))
      as [e|[[t|]]] eqn:Hcall.
    + right. apply (Hfail e). now left.
    + destruct (json_decode t) as [e|v] eqn:Hparse.
      * right. apply (Hfail e). right; left. now exists t.
      * pose proof (get_medical_info_valid gemini_client json_decode
                      encoder_depth data p w Hvalid) as Heq.
        rewrite Hcall in Heq. cbn [text] in Heq. rewrite Hparse in Heq.
        destruct (Nat.leb_spec (depth v) encoder_depth) as [Hle | Hlt].
        -- left. exists p, t, v. now repeat split.
        -- right. exists p, RecursionError. split; [assumption|].
           split; [|exact Heq]. right. split; [reflexivity|].
           exists v. split; [now exists t | assumption].
    + right. eapply Hfail. right; right.
      split; [exact Hcall | reflexivity].
Qed.

(** X1: the 400 reply is returned exactly for a JSON object whose prompt is
    missing or made of whitespace only. *)
Theorem get_medical_info_400_iff (data : PyVal) (w : World) :
  fst (handler data w) =
    Returns (error_reply (py "Missing 'prompt' in request body.") 400)
  <-> blank_request data.
Proof.
  split.
  - destruct (get_medical_info_cases data w)
      as [(_ & attr & bad & ->) | [(Hblank & _)
         | [(p & t & v & _ & _ & _ & _ & ->) | (p & e & _ & _ & ->)]]];
      cbn [fst]; intros H; try assumption; discriminate H.
  - intros Hblank.
    now rewrite (get_medical_info_blank gemini_client json_decode
      encoder_depth data w
                   Hblank).
Qed.

(** X2: the handler raises exactly when the body is not a JSON object or its
    prompt is present and not a string: with any other body it returns a
    reply, whatever the provider and the decoder do. *)
Theorem get_medical_info_raises_iff (data : PyVal) (w : World) :
  (exists e, fst (handler data w) = Raises e) <->
  malformed_request data = true.
Proof.
  split.
  - intros [e0 H].
    destruct (get_medical_info_cases data w)
      as [(Hbad & _) | [(_ & Heq)
         | [(p & t & v & _ & _ & _ & _ & Heq) | (p & e & _ & _ & Heq)]]];
      try assumption; rewrite Heq in H; discriminate H.
  - intros Hbad.
    destruct (get_medical_info_malformed gemini_client json_decode
      encoder_depth data w
                Hbad) as (attr & bad & ->).
    now eexists.
Qed.

(** X3: a reply of the handler has one of three shapes: the 400 reply, a 200
    reply around a parsed value, or a 500 reply around an exception; its
    status is never anything else. *)
Theorem get_medical_info_reply_shapes (data : PyVal) (w : World)
  (reply : Reply) :
  fst (handler data w) = Returns reply ->
  (reply = error_reply (py "Missing 'prompt' in request body.") 400 /\
   snd reply = 400%Z) \/
  (exists v, reply = success_reply v /\ snd reply = 200%Z) \/
  (exists e, reply = upstream_error_reply e /\ snd reply = 500%Z).
Proof.
  destruct (get_medical_info_cases data w)
    as [(_ & attr & bad & ->) | [(_ & ->)
       | [(p & t & v & _ & _ & _ & _ & ->) | (p & e & _ & _ & ->)]]];
    cbn [fst]; intros H; [discriminate H | | |]; injection H as <-.
  - left. now split.
  - right; left. now exists v.
  - right; right. now exists e.
Qed.


(** X5: only the trimmed prompt matters: two bodies whose prompts trim to the
    same non-empty text, whatever else they hold, are handled alike. *)
Theorem get_medical_info_depends_on_trimmed_prompt (data1 data2 : PyVal)
  (user_prompt : pystr) (w : World) :
  valid_request data1 user_prompt ->
  valid_request data2 user_prompt ->
  handler data1 w = handler data2 w.
Proof.
  intros H1 H2.
  rewrite (get_medical_info_valid gemini_client json_decode encoder_depth data1
             user_prompt w H1).
  now rewrite (get_medical_info_valid gemini_client json_decode
    encoder_depth data2
                 user_prompt w H2).
Qed.

(** X6: every call the handler sends is the call for a prompt of the body that
    is trimmed and not empty: a blank or untrimmed prompt never reaches the
    provider. *)
Theorem get_medical_info_calls_are_trimmed (data : PyVal) (w : World)
  (calls : list GenerateContentCall) (call : GenerateContentCall) :
  sent (snd (handler data w)) = sent w ++ calls ->
  In call calls ->
  exists user_prompt,
    call = medical_call user_prompt /\
    valid_request data user_prompt /\
    user_prompt <> [] /\
    strip user_prompt = user_prompt.
Proof.
  assert (Htrim : forall p, valid_request data p -> p <> [] /\ strip p = p).
  { intros p (items & s & _ & _ & <- & Hne). split; [assumption|].
    apply strip_idempotent. }
  destruct (get_medical_info_cases data w)
    as [(_ & attr & bad & ->) | [(_ & ->)
       | [(p & t & v & Hvalid & _ & _ & _ & ->) | (p & e & Hvalid & _ & ->)]]];
    cbn [snd sent after_call after_failure]; intros Hsent Hin.
  - rewrite <- (app_nil_r (sent w)) in Hsent at 1.
    apply app_inv_head in Hsent. subst calls. contradiction.
  - rewrite <- (app_nil_r (sent w)) in Hsent at 1.
    apply app_inv_head in Hsent. subst calls. contradiction.
  - apply app_inv_head in Hsent. subst calls.
    destruct Hin as [<- | []]. exists p.
    destruct (Htrim p Hvalid). now repeat split.
  - apply app_inv_head in Hsent. subst calls.
    destruct Hin as [<- | []]. exists p.
    destruct (Htrim p Hvalid). now repeat split.
Qed.

(** X7: the handler prints exactly when it replies 500: then one line, about
    the exception the reply reports; otherwise nothing. *)
Theorem get_medical_info_prints_on_failure_only (data : PyVal) (w : World) :
  (stdout (snd (handler data w)) = stdout w /\
   forall e, fst (handler data w) <> Returns (upstream_error_reply e)) \/
  (exists e,
     stdout (snd (handler data w)) = stdout w ++ [failure_line e] /\
     fst (handler data w) = Returns (upstream_error_reply e)).
Proof.
  destruct (get_medical_info_cases data w)
    as [(_ & attr & bad & ->) | [(_ & ->)
       | [(p & t & v & _ & _ & _ & _ & ->) | (p & e & _ & _ & ->)]]];
    cbn [fst snd].
  - left. split; [reflexivity | intros e H; discriminate H].
  - left. split; [reflexivity | intros e H; discriminate H].
  - left. split; [reflexivity | intros e H; discriminate H].
  - right. exists e. now split.
Qed.


End HandlerOutcomes.

(** ** Start-up, continued *)

(** With a non-empty key and a constructor that succeeds, the module
    reaches [app.run] on port 5000 and prints nothing. *)
Lemma main_serving (genai_Client : option pystr -> PyException + Client)
  (environ : Environ) (key : pystr) (gemini_client : Client) :
  os_getenv environ (py "GEMINI_API_KEY") = Some key ->
  key <> [] ->
  genai_Client (Some key) = inr gemini_client ->
  main genai_Client environ = (Serving gemini_client 5000, []).
Proof.
  intros Hkey Hne Hclient. unfold main. rewrite Hkey.
  destruct key as [|c key]; [contradiction|].
  cbn [truthy_opt truthy negb]. now rewrite Hclient.
Qed.

(** X10: the module serves exactly when the key is set to a non-empty value and
    the constructor of the client, given that key, succeeds; it then
    listens on port 5000 with that client and has printed nothing. *)
Theorem main_serves_iff (genai_Client : option pystr -> PyException + Client)
  (environ : Environ) (gemini_client : Client) (port : Z)
  (printed : list pystr) :
  main genai_Client environ = (Serving gemini_client port, printed) <->
  port = 5000%Z /\
  printed = [] /\
  exists key,
    os_getenv environ (py "GEMINI_API_KEY") = Some key /\
    key <> [] /\
    genai_Client (Some key) = inr gemini_client.
Proof.
  split.
  - unfold main.
    destruct (os_getenv environ (py "GEMINI_API_KEY")) as [[|c key]|];
      cbn [truthy_opt truthy negb];
      [intros H; discriminate H | | intros H; discriminate H].
    destruct (genai_Client _) as [e|client] eqn:Hclient;
      intros H; [discriminate H|].
    injection H as -> <- <-.
    split; [reflexivity|]. split; [reflexivity|].
    exists (c :: key). now repeat split.
  - intros (-> & -> & key & Hkey & Hne & Hclient).
    exact (main_serving genai_Client environ key gemini_client
             Hkey Hne Hclient).
Qed.

(** X11: the module exits only with status 1, and what it printed tells why:
    the key is missing or empty (the constructor of the client is then not
    consulted), or the constructor raised on the key. *)
Theorem main_exits_iff (genai_Client : option pystr -> PyException + Client)
  (environ : Environ) (status : Z) (printed : list pystr) :
  main genai_Client environ = (Exited status, printed) <->
  status = 1%Z /\
  ((truthy_opt (os_getenv environ (py "GEMINI_API_KEY")) = false /\
    printed = [py "FATAL ERROR: GEMINI_API_KEY not found. Exiting."]) \/
   (exists key e,
      os_getenv environ (py "GEMINI_API_KEY") = Some key /\
      key <> [] /\
      genai_Client (Some key) = inl e /\
      printed = [py "Error initializing Gemini client: " ++ exc_str e])).
Proof.
  unfold main.
  destruct (os_getenv environ (py "GEMINI_API_KEY")) as [[|c key]|];
    cbn [truthy_opt truthy negb].
  - split.
    + intros H. injection H as <- <-. split; [reflexivity | now left].
    + intros (-> & [(_ & ->) | (key & e & Hkey & Hne & _)]);
        [reflexivity|].
      injection Hkey as <-. contradiction.
  - destruct (genai_Client _) as [e|client] eqn:Hclient.
    + split.
      * intros H. injection H as <- <-. split; [reflexivity|].
        right. exists (c :: key), e. now repeat split.
      * intros (-> & [(Hfalse & _) | (key' & e' & Hkey & _ & He & ->)]);
          [discriminate|].
        injection Hkey as <-. rewrite Hclient in He.
        now injection He as <-.
    + split; [intros H; discriminate H|].
      intros (_ & [(Hfalse & _) | (key' & e' & Hkey & _ & He & _)]);
        [discriminate|].
      injection Hkey as <-. rewrite Hclient in He. discriminate.
  - split.
    + intros H. injection H as <- <-. split; [reflexivity | now left].
    + intros (-> & [(_ & ->) | (key & e & Hkey & _)]);
        [reflexivity | discriminate].
Qed.

(** X12: from start-up to a request: in a process started with a non-empty key,
    a POST to [/api/get-medical-info] is answered by the handler running
    with the client the constructor returned for that key. *)
Theorem served_requests_use_startup_client
  (genai_Client : option pystr -> PyException + Client)
  (json_decode : pystr -> PyException + PyVal) (encoder_depth : nat)
  (environ : Environ) (key : pystr) (gemini_client : Client) (data : PyVal) :
  os_getenv environ (py "GEMINI_API_KEY") = Some key ->
  key <> [] ->
  genai_Client (Some key) = inr gemini_client ->
  handle json_decode encoder_depth (fst (main genai_Client environ))
    (mkRequest POST (py "/api/get-medical-info") data)
  = Some (get_medical_info gemini_client json_decode encoder_depth data).
Proof.
  intros Hkey Hne Hclient.
  now rewrite (main_serving genai_Client environ key gemini_client
                 Hkey Hne Hclient).
Qed.

(** ** The further properties at concrete inputs *)

Lemma padded_is_valid :
  valid_request
    (PyDict [(py "lang", PyStr (py "en"));
             (py "prompt", PyStr (py "  I have a headache and fever  "))])
    (py "I have a headache and fever").
Proof.
  exists [(py "lang", PyStr (py "en"));
          (py "prompt", PyStr (py "  I have a headache and fever  "))],
         (py "  I have a headache and fever  ").
  split; [reflexivity|]. split; [reflexivity|].
  split; [reflexivity | discriminate].
Defined.

Lemma create_medical_prompt_injective_witness :
  create_medical_prompt (py "fever") = create_medical_prompt (py "fever") /\
  py "fever" = py "fever".
Proof.
  split; [reflexivity|].
  apply (create_medical_prompt_injective (py "fever") (py "fever")).
  reflexivity.
Defined.

Lemma get_medical_schema_well_formed_witness :
  In (py "summary") (required_names (get_medical_schema tt)) /\
  exists s,
    property (get_medical_schema tt) (py "summary") = Some s /\
    is_string s = true.
Proof.
  assert (H : In (py "summary") (required_names (get_medical_schema tt))).
  { right. right. left. reflexivity. }
  split; [exact H|].
  exact (proj1 (proj2 (proj2 (get_medical_schema_well_formed tt)))
           (py "summary") H).
Defined.

Lemma get_medical_info_400_iff_witness :
  blank_request (PyDict []) /\
  fst (get_medical_info (mock_client (inr (mkResponse (Some (py "{}")))))
         mock_decode mock_encoder_depth (PyDict []) empty_world)
  = Returns (error_reply (py "Missing 'prompt' in request body.") 400).
Proof.
  assert (H : blank_request (PyDict [])).
  { exists []. split; [reflexivity | left; reflexivity]. }
  split; [exact H|].
  exact (proj2 (get_medical_info_400_iff
                  (mock_client (inr (mkResponse (Some (py "{}")))))
                  mock_decode mock_encoder_depth (PyDict []) empty_world) H).
Defined.

Lemma get_medical_info_raises_iff_witness :
  malformed_request (PyList []) = true /\
  exists e,
    fst (get_medical_info (mock_client (inr (mkResponse (Some (py "{}")))))
           mock_decode mock_encoder_depth (PyList []) empty_world)
    = Raises e.
Proof.
  split; [reflexivity|].
  apply (proj2 (get_medical_info_raises_iff
                  (mock_client (inr (mkResponse (Some (py "{}")))))
                  mock_decode mock_encoder_depth (PyList []) empty_world)).
  reflexivity.
Defined.

Lemma get_medical_info_reply_shapes_witness :
  (success_reply (PyDict []) =
     error_reply (py "Missing 'prompt' in request body.") 400 /\
   snd (success_reply (PyDict [])) = 400%Z) \/
  (exists v,
     success_reply (PyDict []) = success_reply v /\
     snd (success_reply (PyDict [])) = 200%Z) \/
  (exists e,
     success_reply (PyDict []) = upstream_error_reply e /\
     snd (success_reply (PyDict [])) = 500%Z).
Proof.
  apply (get_medical_info_reply_shapes
           (mock_client (inr (mkResponse (Some (py "{}")))))
             mock_decode mock_encoder_depth
           (prompt_body "I have a headache and fever") empty_world
           (success_reply (PyDict []))).
  reflexivity.
Defined.


Lemma get_medical_info_depends_on_trimmed_prompt_witness :
  get_medical_info (mock_client (inr (mkResponse (Some (py "{}")))))
    mock_decode mock_encoder_depth
    (prompt_body "I have a headache and fever") empty_world
  = get_medical_info (mock_client (inr (mkResponse (Some (py "{}")))))
      mock_decode mock_encoder_depth
      (PyDict [(py "lang", PyStr (py "en"));
               (py "prompt", PyStr (py "  I have a headache and fever  "))])
      empty_world.
Proof.
  apply (get_medical_info_depends_on_trimmed_prompt
           (mock_client (inr (mkResponse (Some (py "{}")))))
             mock_decode mock_encoder_depth
           (prompt_body "I have a headache and fever")
           (PyDict [(py "lang", PyStr (py "en"));
                    (py "prompt", PyStr (py "  I have a headache and fever  "))])
           (py "I have a headache and fever") empty_world).
  - exact headache_is_valid.
  - exact padded_is_valid.
Defined.

Lemma get_medical_info_calls_are_trimmed_witness :
  exists user_prompt,
    medical_call (py "I have a headache and fever")
      = medical_call user_prompt /\
    valid_request
      (PyDict [(py "lang", PyStr (py "en"));
               (py "prompt", PyStr (py "  I have a headache and fever  "))])
      user_prompt /\
    user_prompt <> [] /\
    strip user_prompt = user_prompt.
Proof.
  apply (get_medical_info_calls_are_trimmed
           (mock_client (inr (mkResponse (Some (py "{}")))))
             mock_decode mock_encoder_depth
           (PyDict [(py "lang", PyStr (py "en"));
                    (py "prompt", PyStr (py "  I have a headache and fever  "))])
           empty_world
           [medical_call (py "I have a headache and fever")]
           (medical_call (py "I have a headache and fever"))).
  - reflexivity.
  - left. reflexivity.
Defined.

Lemma main_serves_iff_witness :
  main (fun _ => inr (mock_client (inr (mkResponse None))))
    [(py "GEMINI_API_KEY", py "secret")]
  = (Serving (mock_client (inr (mkResponse None))) 5000, []).
Proof.
  apply (proj2 (main_serves_iff
                  (fun _ => inr (mock_client (inr (mkResponse None))))
                  [(py "GEMINI_API_KEY", py "secret")]
                  (mock_client (inr (mkResponse None))) 5000 [])).
  split; [reflexivity|]. split; [reflexivity|].
  exists (py "secret").
  split; [reflexivity|]. split; [discriminate | reflexivity].
Defined.

Lemma main_exits_iff_witness :
  main (fun _ => inl (mkExc "ValueError" (py "bad key")))
    [(py "GEMINI_API_KEY", py "secret")]
  = (Exited 1, [py "Error initializing Gemini client: bad key"]).
Proof.
  apply (proj2 (main_exits_iff
                  (fun _ => inl (mkExc "ValueError" (py "bad key")))
                  [(py "GEMINI_API_KEY", py "secret")] 1
                  [py "Error initializing Gemini client: bad key"])).
  split; [reflexivity|]. right.
  exists (py "secret"), (mkExc "ValueError" (py "bad key")).
  split; [reflexivity|]. split; [discriminate|].
  split; reflexivity.
Defined.

Lemma served_requests_use_startup_client_witness :
  handle mock_decode mock_encoder_depth
    (fst (main (fun _ => inr (mock_client (inr (mkResponse None))))
            [(py "GEMINI_API_KEY", py "secret")]))
    (mkRequest POST (py "/api/get-medical-info") (PyDict []))
  = Some (get_medical_info (mock_client (inr (mkResponse None)))
    mock_decode mock_encoder_depth
            (PyDict [])).
Proof.
  apply (served_requests_use_startup_client
           (fun _ => inr (mock_client (inr (mkResponse None)))) mock_decode
           mock_encoder_depth
           [(py "GEMINI_API_KEY", py "secret")] (py "secret")
           (mock_client (inr (mkResponse None))) (PyDict [])).
  - reflexivity.
  - discriminate.
  - reflexivity.
Defined.

(** ** Answers nested too deep *)





Example head_request_runs_home :
  dispatch_request (mock_client (inr (mkResponse None))) mock_decode
    mock_encoder_depth (mkRequest HEAD (py "/") PyNone)
  = Some (home mock_encoder_depth).
Proof. reflexivity. Qed.

Example shallow_answer_is_returned :
  fst (get_medical_info (mock_client (inr (mkResponse (Some (brackets 2)))))
         bracket_decode mock_encoder_depth (prompt_body "fever") empty_world)
  = Returns (success_reply (PyList [PyList [PyList []]])).
Proof. vm_compute. reflexivity. Qed.
